(** * OSMRoomSearch: the room-resolution service of [app/app.py]

    A shallow embedding of the Flask application: the request handlers
    [handle_find_room] and [handle_rooms], the resolution pipeline
    [find_room] and the cache-key function [make_request_body_cache_key].

    The third-party collaborators are interfaces: the [pyrosm] parser is the
    record [OSM], the [shapely]/[geopandas] operations are the record [Geo],
    and the Python built-ins the code calls ([str.upper], [repr], [md5],
    the JSON atom encoders) are section variables.  Python exceptions are
    the [Raise] case of the monad [exc]; only [str(e)] is kept, which is all
    the handler reads.  Coordinates are binary64 floats, carried and never
    computed with.  The [cache.cached] decorators are outside the model: the
    handlers are their bodies, and the key function stands on its own. *)

From Stdlib Require Import String Ascii List ZArith Bool.
From Stdlib Require Import Permutation Sorted OrderedTypeEx.
From Stdlib Require Import Floats.PrimFloat.
Import ListNotations.
Open Scope list_scope.
Open Scope string_scope.

Set Implicit Arguments.
#[local] Set Warnings "-register-all".

(* ================================================================== *)
(** ** Python values *)

(** The values that cross the HTTP boundary ([request.get_json()],
    [jsonify]) and the cells of a data-frame row.  A [dict] is an
    association list in insertion order, as CPython keeps it. *)
Inductive value : Type :=
| VNone
| VBool (b : bool)
| VInt (n : Z)
| VFloat (f : float)
| VStr (s : string)
| VList (items : list value)
| VDict (items : list (string * value)).

(** [type(v).__name__] *)
Definition type_name (v : value) : string :=
  match v with
  | VNone => "NoneType"
  | VBool _ => "bool"
  | VInt _ => "int"
  | VFloat _ => "float"
  | VStr _ => "str"
  | VList _ => "list"
  | VDict _ => "dict"
  end.

(** [bool(v)], the test behind [not data]. *)
Definition truthy (v : value) : bool :=
  match v with
  | VNone => false
  | VBool b => b
  | VInt n => negb (n =? 0)%Z
  | VFloat f => negb (PrimFloat.eqb f 0%float)
  | VStr s => negb (s =? "")
  | VList items => match items with [] => false | _ :: _ => true end
  | VDict items => match items with [] => false | _ :: _ => true end
  end.

(** ** Exceptions *)

(** A computation either raises (carrying [str(e)]) or returns. *)
Inductive exc (A : Type) : Type :=
| Raise (e : string)
| Return (a : A).

Arguments Raise {A} e.
Arguments Return {A} a.

Definition bind {A B : Type} (m : exc A) (k : A -> exc B) : exc B :=
  match m with
  | Raise e => Raise e
  | Return a => k a
  end.

Notation "x <- m ;; k" := (bind m (fun x => k))
  (at level 61, m at next level, right associativity).

(** ** Dictionaries and the [in] operator *)

Fixpoint lookup {A : Type} (key : string) (d : list (string * A)) : option A :=
  match d with
  | [] => None
  | (k, v) :: rest => if k =? key then Some v else lookup key rest
  end.

Definition has_key {A : Type} (key : string) (d : list (string * A)) : bool :=
  match lookup key d with Some _ => true | None => false end.

(** [needle in hay] on two [str]: substring search. *)
Fixpoint contains (needle hay : string) : bool :=
  prefix needle hay ||
  match hay with
  | EmptyString => false
  | String _ rest => contains needle rest
  end.

(** [key in container] for a [str] key; the scalars are not iterable.  The
    texts of the built-in exceptions here and below are CPython's. *)
Definition py_in (key : string) (container : value) : exc bool :=
  match container with
  | VDict items => Return (has_key key items)
  | VList items =>
      Return (existsb (fun x => match x with VStr s => s =? key | _ => false end) items)
  | VStr s => Return (contains key s)
  | _ => Raise ("argument of type '" ++ type_name container ++ "' is not iterable")
  end.

(** [container[key]] for a [str] key. *)
Definition getitem (container : value) (key : string) : exc value :=
  match container with
  | VDict items =>
      match lookup key items with
      | Some v => Return v
      | None => Raise ("'" ++ key ++ "'")
      end
  | VList _ => Raise "list indices must be integers or slices, not str"
  | VStr _ => Raise "string indices must be integers"
  | _ => Raise ("'" ++ type_name container ++ "' object is not subscriptable")
  end.

(** ** JSON bodies up to the order of keys *)

(** Two values that are the same JSON text up to the order in which the
    members of each object are written, at every depth. *)
Inductive same_modulo_key_order : value -> value -> Prop :=
| same_value (v : value) : same_modulo_key_order v v
| same_list (l1 l2 : list value) :
    Forall2 same_modulo_key_order l1 l2 ->
    same_modulo_key_order (VList l1) (VList l2)
| same_dict (d1 d1' d2 : list (string * value)) :
    Permutation d1 d1' ->
    Forall2 (fun a b => fst a = fst b /\ same_modulo_key_order (snd a) (snd b))
            d1' d2 ->
    same_modulo_key_order (VDict d1) (VDict d2).

(** The keys of every dictionary inside the value are distinct, as they are
    in a Python [dict]. *)
Fixpoint distinct_keys (v : value) : Prop :=
  match v with
  | VList items =>
      (fix all (l : list value) : Prop :=
         match l with
         | [] => True
         | x :: rest => distinct_keys x /\ all rest
         end) items
  | VDict items =>
      NoDup (map fst items) /\
      (fix all (l : list (string * value)) : Prop :=
         match l with
         | [] => True
         | kv :: rest => distinct_keys (snd kv) /\ all rest
         end) items
  | _ => True
  end.

(** Induction on a value with the hypotheses for the items of a list and
    for the values of a dictionary. *)
Fixpoint value_nested_ind (P : value -> Prop)
  (HNone : P VNone) (HBool : forall b, P (VBool b)) (HInt : forall n, P (VInt n))
  (HFloat : forall f, P (VFloat f)) (HStr : forall s, P (VStr s))
  (HList : forall items, Forall P items -> P (VList items))
  (HDict : forall items, Forall (fun kv => P (snd kv)) items -> P (VDict items))
  (v : value) {struct v} : P v :=
  let rec := value_nested_ind HNone HBool HInt HFloat HStr HList HDict in
  match v with
  | VNone => HNone
  | VBool b => HBool b
  | VInt n => HInt n
  | VFloat f => HFloat f
  | VStr s => HStr s
  | VList items =>
      HList items
        ((fix all (l : list value) : Forall P l :=
            match l with
            | [] => Forall_nil P
            | x :: rest => Forall_cons x (rec x) (all rest)
            end) items)
  | VDict items =>
      HDict items
        ((fix all (l : list (string * value)) : Forall (fun kv => P (snd kv)) l :=
            match l with
            | [] => Forall_nil _
            | kv :: rest => Forall_cons kv (rec (snd kv)) (all rest)
            end) items)
  end.

(* ================================================================== *)
(** ** Geometries (shapely) *)

(** A coordinate tuple [(x, y)]: [coord[0]] is the longitude, [coord[1]]
    the latitude. *)
Definition coord : Type := (float * float)%type.

Record polygon : Type := {
  exterior : list coord;            (* poly.exterior.coords *)
  interiors : list (list coord)     (* the holes *)
}.

Inductive geometry : Type :=
| Point (c : coord)
| LineString (coords : list coord)
| Polygon (p : polygon)
| MultiPoint (pts : list coord)
| MultiLineString (lines : list (list coord))
| MultiPolygon (geoms : list polygon).

Definition geom_type (g : geometry) : string :=
  match g with
  | Point _ => "Point"
  | LineString _ => "LineString"
  | Polygon _ => "Polygon"
  | MultiPoint _ => "MultiPoint"
  | MultiLineString _ => "MultiLineString"
  | MultiPolygon _ => "MultiPolygon"
  end.

(** [s in [a, b, ...]] on strings. *)
Definition str_in_list (s : string) (l : list string) : bool :=
  existsb (String.eqb s) l.

(* ================================================================== *)
(** ** Data frames *)

(** A row of a frame returned by the parser, reduced to the columns the
    service reads: [row.id], [row.geometry] and the [row.get(...)] of
    ["name"], ["ref"], ["level"] and ["osm_id"] ([VNone] stands for a column
    that is missing, which is what [row.get] returns for it). *)
Record row : Type := {
  row_id : value;
  row_geometry : geometry;
  row_name : value;
  row_ref : value;
  row_level : value;
  row_osm_id : value
}.

Definition GeoDataFrame : Type := list row.

(** [df.empty] *)
Definition empty {A : Type} (df : list A) : bool :=
  match df with [] => true | _ :: _ => false end.

(** A row of [rooms] once the ["centroid"] column has been assigned. *)
Record room_row : Type := {
  base : row;
  centroid_col : geometry
}.

Definition custom_filter : Type := list (string * list value).

(** The [pyrosm.OSM] parser object. *)
Record OSM : Type := {
  get_buildings : custom_filter -> exc GeoDataFrame;
  (* custom_filter, extra_attributes, filter_type, keep_nodes, keep_ways *)
  get_data_by_custom_criteria :
    custom_filter -> option (list string) -> string -> bool -> bool ->
    exc GeoDataFrame
}.

(** The geometry operations of [shapely] and [geopandas]. *)
Record Geo : Type := {
  centroid : geometry -> coord;                 (* g.centroid, as (x, y) *)
  unary_union : list geometry -> geometry;
  within : geometry -> geometry -> bool;        (* a.within(b) *)
  (* gpd.sjoin(left, right, predicate=..., how=...): [left] is joined on its
     active geometry column ["centroid"], [right] is given by its geometries *)
  sjoin : list room_row -> list geometry -> string -> string -> list room_row
}.

(** What [sjoin] promises for [predicate="within", how="inner"] against a
    one-row right frame: the rows kept are the left rows whose active
    geometry lies within the right geometry.  The order of the result is
    left to the library. *)
Definition sjoin_within_inner (G : Geo) : Prop :=
  forall (left : list room_row) (g : geometry) (r : room_row),
    In r (sjoin G left [g] "within" "inner") <->
    In r left /\ within G (centroid_col r) g = true.

(* ================================================================== *)
(** ** The result of [find_room] *)

Record Tags : Type := {
  tag_name : value;
  tag_ref : value;
  tag_level : value
}.

Record Node : Type := {
  node_latitude : float;
  node_longitude : float
}.

Record RoomMatch : Type := {
  latitude : float;
  longitude : float;
  osm_id : value;
  tags : Tags;
  nodes : list Node
}.

(** [find_room] returns one of two dictionaries: [{"error": ...}] or the
    room-match dictionary. *)
Inductive find_room_result : Type :=
| ErrorResult (error : string)
| MatchResult (m : RoomMatch).

Definition node_dict (n : Node) : value :=
  VDict [("latitude", VFloat (node_latitude n));
         ("longitude", VFloat (node_longitude n))].

Definition tags_dict (t : Tags) : value :=
  VDict [("name", tag_name t); ("ref", tag_ref t); ("level", tag_level t)].

Definition match_dict (m : RoomMatch) : list (string * value) :=
  [("latitude", VFloat (latitude m));
   ("longitude", VFloat (longitude m));
   ("osm_id", osm_id m);
   ("tags", tags_dict (tags m));
   ("nodes", VList (map node_dict (nodes m)))].

(** The dictionary the result is, as Python sees it. *)
Definition result_dict (r : find_room_result) : list (string * value) :=
  match r with
  | ErrorResult e => [("error", VStr e)]
  | MatchResult m => match_dict m
  end.

(* ================================================================== *)
(** ** HTTP *)

(** The Flask [request]: its path and what [request.get_json()] does. *)
Record Request : Type := {
  path : string;
  get_json : exc value
}.

Record Response : Type := {
  body : value;
  status : Z
}.

Definition jsonify (v : value) : value := v.

(* ================================================================== *)
(** ** A small campus

    Stand-ins for the collaborators, used by the examples that follow the
    theorems: an ASCII [upper], a parser over a handful of features and a
    bounding-box geometry. *)

Module Campus.

Definition upper_char (c : ascii) : ascii :=
  let n := nat_of_ascii c in
  if (97 <=? n)%nat && (n <=? 122)%nat then ascii_of_nat (n - 32) else c.

Fixpoint ascii_upper (s : string) : string :=
  match s with
  | EmptyString => EmptyString
  | String c rest => String (upper_char c) (ascii_upper rest)
  end.

Definition plain_repr (v : value) : string := "<" ++ type_name v ++ ">".

Definition plain_int (n : Z) : string := "<int>".

Definition plain_float (f : float) : string := "<float>".

Definition quote : string := String "034"%char EmptyString.

Definition quoted (s : string) : string := quote ++ s ++ quote.

(** A checksum in place of MD5: the sum of the bytes. *)
Fixpoint byte_sum (s : string) : nat :=
  match s with
  | EmptyString => 0
  | String c rest => nat_of_ascii c + byte_sum rest
  end.

Definition digest (s : string) : string :=
  string_of_list_ascii (repeat "x"%char (byte_sum s mod 7)) ++ "#".

(** *** Geometry by bounding boxes *)

Definition square (x0 y0 x1 y1 : float) : list coord :=
  [(x0, y0); (x1, y0); (x1, y1); (x0, y1); (x0, y0)].

Definition coords_of (g : geometry) : list coord :=
  match g with
  | Point c => [c]
  | LineString cs => cs
  | Polygon p => exterior p
  | MultiPoint pts => pts
  | MultiLineString lines => concat lines
  | MultiPolygon geoms => concat (map exterior geoms)
  end.

Definition fmin (a b : float) : float := if PrimFloat.ltb a b then a else b.
Definition fmax (a b : float) : float := if PrimFloat.ltb a b then b else a.

(** [(minx, miny, maxx, maxy)] *)
Definition bounds (cs : list coord) : float * float * float * float :=
  match cs with
  | [] => (0, 0, 0, 0)%float
  | c :: rest =>
      (fold_right fmin (fst c) (map fst rest),
       fold_right fmin (snd c) (map snd rest),
       fold_right fmax (fst c) (map fst rest),
       fold_right fmax (snd c) (map snd rest))
  end.

Definition box_centroid (g : geometry) : coord :=
  let '(minx, miny, maxx, maxy) := bounds (coords_of g) in
  ((minx + maxx) / 2, (miny + maxy) / 2)%float.

Definition box_within (a b : geometry) : bool :=
  let '(minx, miny, maxx, maxy) := bounds (coords_of b) in
  negb (empty (coords_of a)) &&
  forallb (fun c => PrimFloat.ltb minx (fst c) && PrimFloat.ltb (fst c) maxx &&
                    PrimFloat.ltb miny (snd c) && PrimFloat.ltb (snd c) maxy)
          (coords_of a).

Definition polygons_of (g : geometry) : list polygon :=
  match g with
  | Polygon p => [p]
  | MultiPolygon geoms => geoms
  | _ => []
  end.

Definition collect_polygons (gs : list geometry) : geometry :=
  MultiPolygon (concat (map polygons_of gs)).

(** The join keeps the left rows in their order. *)
Definition keep_within (left : list room_row) (right : list geometry)
  (predicate how : string) : list room_row :=
  filter (fun r => existsb (box_within (centroid_col r)) right) left.

Definition geo : Geo :=
  {| centroid := box_centroid;
     unary_union := collect_polygons;
     within := box_within;
     sjoin := keep_within |}.

(** *** The features *)

Definition feature (id : Z) (g : geometry) (name ref level : value) : row :=
  {| row_id := VInt id; row_geometry := g; row_name := name;
     row_ref := ref; row_level := level; row_osm_id := VNone |}.

Definition area (ring : list coord) : geometry :=
  Polygon {| exterior := ring; interiors := [] |}.

Definition engineering_hall : row :=
  feature 1 (area (square 0 0 10 10)) (VStr "Engineering Hall") VNone VNone.

Definition dataset_hall : row :=
  feature 2 (area (square 100 100 110 110)) (VStr "dataset") VNone VNone.

Definition a101_upper : row :=
  feature 11 (area (square 1 1 3 3)) VNone (VStr "A101") (VStr "2").

Definition a101_lower : row :=
  feature 12 (area (square 5 5 7 7)) VNone (VStr "A101") (VStr "1").

Definition a101_elsewhere : row :=
  feature 13 (Point (50, 50)%float) VNone (VStr "A101") VNone.

Definition b7_elsewhere : row :=
  feature 21 (Point (50, 50)%float) VNone (VStr "B7") VNone.

Definition lab_annex : row :=
  feature 31 (area (square 2 2 4 4)) (VStr "Lab") (VStr "LAB-1") VNone.

Definition desk : row :=
  feature 41 (Point (2, 2)%float) (VStr "P1") VNone VNone.

Definition corridor : row :=
  feature 51 (LineString [(1, 1); (3, 3)]%float) VNone (VStr "W1") VNone.

(** A line that starts inside the hall and ends outside it. *)
Definition threshold : row :=
  feature 52 (LineString [(8, 5); (11, 5)]%float) VNone (VStr "W2") VNone.

Definition wing_west : polygon :=
  {| exterior := square 1 1 2 2;
     interiors := [square 1.25 1.25 1.75 1.75] |}.

Definition wing_east : polygon :=
  {| exterior := square 6 6 8 8; interiors := [] |}.

Definition atrium : row :=
  feature 61 (MultiPolygon [wing_west; wing_east]) VNone (VStr "M1") (VStr "0").

Definition rooms_for (identifier : string) : GeoDataFrame :=
  if identifier =? "A101" then [a101_elsewhere; a101_upper; a101_lower]
  else if identifier =? "B7" then [b7_elsewhere]
  else if identifier =? "LAB" then [lab_annex]
  else if identifier =? "P1" then [desk]
  else if identifier =? "W1" then [corridor]
  else if identifier =? "W2" then [threshold]
  else if identifier =? "M1" then [atrium]
  else [].

Definition buildings_named (name : string) : GeoDataFrame :=
  if name =? "Engineering Hall" then [engineering_hall]
  else if name =? "dataset" then [dataset_hall]
  else [].

Definition campus_buildings (cf : custom_filter) : exc GeoDataFrame :=
  match lookup "name" cf with
  | Some [VStr name] => Return (buildings_named name)
  | _ => Raise "custom_filter values must be strings"
  end.

Definition campus_data (with_rooms : bool) (cf : custom_filter)
  (extra_attributes : option (list string)) (filter_type : string)
  (keep_nodes keep_ways : bool) : exc GeoDataFrame :=
  match lookup "building" cf with
  | Some _ => Return [engineering_hall; dataset_hall]
  | None =>
      match lookup "ref" cf with
      | Some [VStr identifier] =>
          Return (if with_rooms then rooms_for identifier else [])
      | _ => Raise "custom_filter values must be strings"
      end
  end.

Definition osm : OSM :=
  {| get_buildings := campus_buildings;
     get_data_by_custom_criteria := campus_data true |}.


(** A parser whose every query fails. *)
Definition osm_unreadable : OSM :=
  {| get_buildings := fun _ => Raise "cannot read the extract";
     get_data_by_custom_criteria :=
       fun _ _ _ _ _ => Raise "cannot read the extract" |}.

End Campus.

(* ================================================================== *)
(** ** The service *)

Section Service.

#[local] Set Default Proof Using "Type".

(** Python built-ins, left to the runtime. *)
Variable upper : string -> string.            (* str.upper *)
Variable py_repr : value -> string.           (* repr of numbers and containers *)
Variable int_repr : Z -> string.              (* int.__repr__ *)
Variable float_repr : float -> string.        (* float.__repr__ *)
Variable encode_basestring : string -> string.   (* a JSON string literal *)
Variable md5_hexdigest : string -> string.    (* hashlib.md5(b).hexdigest() *)

(** [osm_parser = OSM(PBF_PATH)], loaded once at start-up. *)
Variable osm_parser : OSM.
Variable geo : Geo.
Variable PBF_PATH : value.

Definition get_osm_parser : OSM := osm_parser.

(** [str(v)], also what an f-string field formats to. *)
Definition py_str (v : value) : string :=
  match v with
  | VStr s => s
  | VNone => "None"
  | VBool true => "True"
  | VBool false => "False"
  | _ => py_repr v
  end.

(** [v.upper()]: only a [str] has the method. *)
Definition str_upper (v : value) : exc string :=
  match v with
  | VStr s => Return (upper s)
  | _ => Raise ("'" ++ type_name v ++ "' object has no attribute 'upper'")
  end.

(** The lambda applied to [rooms.geometry] (lines 112-114). *)
Definition centroid_lambda (g : geometry) : geometry :=
  if str_in_list (geom_type g) ["Polygon"; "MultiPolygon"]
  then Point (centroid geo g)
  else g.

(** The coordinates gathered into [room_nodes] (lines 136-143). *)
Definition room_nodes (g : geometry) : list coord :=
  if geom_type g =? "Polygon" then
    match g with
    | Polygon p => exterior p
    | _ => []
    end
  else if geom_type g =? "MultiPolygon" then
    match g with
    | MultiPolygon geoms => concat (map exterior geoms)
    | _ => []
    end
  else [].

Definition coord_node (c : coord) : Node :=
  {| node_latitude := snd c; node_longitude := fst c |}.

(** The dictionary appended to [results] for one row (lines 145-155). *)
Definition format_row (r : room_row) : RoomMatch :=
  let g := row_geometry (base r) in
  {| latitude := snd (centroid geo g);
     longitude := fst (centroid geo g);
     osm_id := row_id (base r);
     tags := {| tag_name := row_name (base r);
                tag_ref := row_ref (base r);
                tag_level := row_level (base r) |};
     nodes := map coord_node (room_nodes g) |}.

(** The condition of the [exact_matches] comprehension (lines 160-161). *)
Definition is_exact_match (room_identifier : string) (r : RoomMatch) : bool :=
  (py_str (tag_ref (tags r)) =? room_identifier) ||
  (py_str (tag_name (tags r)) =? room_identifier).

Definition find_room (building_name room_identifier pbf_path : value)
  : exc find_room_result :=
  let osm := get_osm_parser in
  buildings <- get_buildings osm [("name", [building_name])] ;;
  if empty buildings then
    Return (ErrorResult ("Building '" ++ py_str building_name ++ "' not found"))
  else
    let building_geom := unary_union geo (map row_geometry buildings) in
    room_identifier <- str_upper room_identifier ;;
    rooms <- get_data_by_custom_criteria osm
               [("indoor", [VStr "room"]);
                ("ref", [VStr room_identifier]);
                ("name", [VStr room_identifier])]
               (Some ["level"]) "keep" true true ;;
    if empty rooms then
      Return (ErrorResult ("Room '" ++ room_identifier ++ "' not found in dataset"))
    else
      let centroids :=
        map (fun r => {| base := r;
                         centroid_col := centroid_lambda (row_geometry r) |})
            rooms in
      let building_gdf := [building_geom] in
      let rooms_in_building := sjoin geo centroids building_gdf "within" "inner" in
      if empty rooms_in_building then
        Return (ErrorResult ("Room '" ++ room_identifier ++ "' not found in "
                             ++ py_str building_name))
      else
        let results := map format_row rooms_in_building in
        let exact_matches := filter (is_exact_match room_identifier) results in
        match exact_matches with
        | [] =>
            Return (ErrorResult ("Exact match for '" ++ room_identifier
                                 ++ "' not found"))
        | first :: _ => Return (MatchResult first)
        end.

(** [POST /v1/find-room] (the body of the handler, without the cache
    decorator). *)
Definition handle_find_room (request : Request) : Response :=
  let attempt : exc Response :=
    data <- get_json request ;;
    missing <-
      (if negb (truthy data) then Return true
       else
         has_building <- py_in "building" data ;;
         if negb has_building then Return true
         else
           has_room <- py_in "room" data ;;
           Return (negb has_room)) ;;
    if (missing : bool) then
      Return {| body := jsonify (VDict [("error", VStr "Missing required parameters")]);
                status := 400 |}
    else
      building <- getitem data "building" ;;
      room <- getitem data "room" ;;
      result <- find_room building room PBF_PATH ;;
      if has_key "error" (result_dict result) then
        Return {| body := jsonify (VDict (result_dict result)); status := 404 |}
      else
        Return {| body := jsonify (VDict (result_dict result)); status := 200 |}
  in
  match attempt with
  | Return response => response
  | Raise e =>
      {| body := jsonify (VDict [("error", VStr ("Server error: " ++ e))]);
         status := 500 |}
  end.

(** [GET /v1/rooms].  The handler has no [try]: an exception of the parser
    leaves it. *)
Definition handle_rooms : exc Response :=
  let osm := get_osm_parser in
  buildings <- get_data_by_custom_criteria osm
                 [("building", [VStr "university"])]
                 None "keep" true true ;;
  let results :=
    map (fun r => VDict [("osm_id", row_osm_id r); ("name", row_name r)])
        buildings in
  Return {| body := jsonify (VList results); status := 200 |}.

(** *** Cache key (lines 35-48) *)

(** [json.dumps] writes an object's items as [sorted(dct.items())] when
    [sort_keys] is set; the keys of a dictionary are distinct, so the
    comparison of two items is the comparison of their keys. *)
Fixpoint insert_item {A : Type} (kv : string * A) (l : list (string * A))
  : list (string * A) :=
  match l with
  | [] => [kv]
  | h :: t =>
      if String.leb (fst kv) (fst h) then kv :: l else h :: insert_item kv t
  end.

Definition sort_items {A : Type} (l : list (string * A)) : list (string * A) :=
  fold_right insert_item [] l.

(** [json.dumps(v, sort_keys=True)] with the default separators.  The
    recursion serializes the values of an object before its items are
    sorted; [sort_items_map_snd] below shows this is the encoder's order
    (sort, then serialize). *)
Fixpoint dumps (v : value) : string :=
  match v with
  | VNone => "null"
  | VBool true => "true"
  | VBool false => "false"
  | VInt n => int_repr n
  | VFloat f => float_repr f
  | VStr s => encode_basestring s
  | VList items => "[" ++ String.concat ", " (map dumps items) ++ "]"
  | VDict items =>
      "{" ++ String.concat ", "
               (map (fun kv => encode_basestring (fst kv) ++ ": " ++ snd kv)
                    (sort_items (map (fun kv => (fst kv, dumps (snd kv))) items)))
          ++ "}"
  end.

(** [s.encode('utf-8')]: the model's strings are already byte strings. *)
Definition encode_utf8 (s : string) : string := s.

Definition make_request_body_cache_key (request : Request) : string :=
  let attempt : exc string :=
    json_data <- get_json request ;;
    if negb (truthy json_data) then Return (path request)
    else
      let payload_str := dumps json_data in
      let payload_hash := md5_hexdigest (encode_utf8 payload_str) in
      let cache_key := path request ++ ":" ++ payload_hash in
      Return cache_key
  in
  match attempt with
  | Return key => key
  | Raise _ => path request
  end.

(* ------------------------------------------------------------------ *)
(** *** The stages of [find_room], named for the statements below *)

(** The query of lines 82-85. *)
Definition building_query (building_name : value) : exc GeoDataFrame :=
  get_buildings get_osm_parser [("name", [building_name])].

(** The query of lines 95-105, on the identifier already in upper case. *)
Definition room_query (room_identifier : string) : exc GeoDataFrame :=
  get_data_by_custom_criteria get_osm_parser
    [("indoor", [VStr "room"]);
     ("ref", [VStr room_identifier]);
     ("name", [VStr room_identifier])]
    (Some ["level"]) "keep" true true.

(** [rooms] with its ["centroid"] column (lines 112-116). *)
Definition with_centroids (rooms : GeoDataFrame) : list room_row :=
  map (fun r => {| base := r; centroid_col := centroid_lambda (row_geometry r) |})
      rooms.

(** The union of line 91. *)
Definition building_geom (buildings : GeoDataFrame) : geometry :=
  unary_union geo (map row_geometry buildings).

(** The join of lines 123-128: the survivors, in the order of the join. *)
Definition rooms_in_building (buildings rooms : GeoDataFrame) : list room_row :=
  sjoin geo (with_centroids rooms) [building_geom buildings] "within" "inner".

(** What a call of [find_room] that returns can return, and why.  The four
    failures carry the names the service's documentation gives them. *)
Inductive find_room_outcome (building_name room_identifier : value)
  : find_room_result -> Prop :=
| BuildingNotFound :
    building_query building_name = Return [] ->
    find_room_outcome building_name room_identifier
      (ErrorResult ("Building '" ++ py_str building_name ++ "' not found"))
| RoomNotFound (buildings : GeoDataFrame) (s : string) :
    building_query building_name = Return buildings ->
    buildings <> [] ->
    room_identifier = VStr s ->
    room_query (upper s) = Return [] ->
    find_room_outcome building_name room_identifier
      (ErrorResult ("Room '" ++ upper s ++ "' not found in dataset"))
| RoomNotFoundInBuilding (buildings rooms : GeoDataFrame) (s : string) :
    building_query building_name = Return buildings ->
    buildings <> [] ->
    room_identifier = VStr s ->
    room_query (upper s) = Return rooms ->
    rooms <> [] ->
    rooms_in_building buildings rooms = [] ->
    find_room_outcome building_name room_identifier
      (ErrorResult ("Room '" ++ upper s ++ "' not found in "
                    ++ py_str building_name))
| ExactMatchNotFound (buildings rooms : GeoDataFrame) (s : string) :
    building_query building_name = Return buildings ->
    buildings <> [] ->
    room_identifier = VStr s ->
    room_query (upper s) = Return rooms ->
    rooms <> [] ->
    rooms_in_building buildings rooms <> [] ->
    Forall (fun r => is_exact_match (upper s) (format_row r) = false)
           (rooms_in_building buildings rooms) ->
    find_room_outcome building_name room_identifier
      (ErrorResult ("Exact match for '" ++ upper s ++ "' not found"))
| FirstExactMatch (buildings rooms : GeoDataFrame) (s : string)
    (before : list room_row) (selected : room_row) (after : list room_row) :
    building_query building_name = Return buildings ->
    buildings <> [] ->
    room_identifier = VStr s ->
    room_query (upper s) = Return rooms ->
    rooms <> [] ->
    rooms_in_building buildings rooms = (before ++ selected :: after)%list ->
    Forall (fun r => is_exact_match (upper s) (format_row r) = false) before ->
    is_exact_match (upper s) (format_row selected) = true ->
    find_room_outcome building_name room_identifier
      (MatchResult (format_row selected)).

(* ------------------------------------------------------------------ *)
(** *** Lists *)

Lemma empty_true_iff (A : Type) (l : list A) : empty l = true <-> l = [].
Proof. destruct l; simpl; split; intros H; try reflexivity; discriminate. Qed.

Lemma empty_false_iff (A : Type) (l : list A) : empty l = false <-> l <> [].
Proof.
  destruct l; simpl; split; intros H; try reflexivity; try discriminate.
  now contradiction H.
Qed.

Lemma filter_none (A : Type) (f : A -> bool) (l : list A) :
  filter f l = [] <-> Forall (fun x => f x = false) l.
Proof.
  induction l as [|x l IH]; simpl.
  - split; [constructor | reflexivity].
  - destruct (f x) eqn:Hx; split; intros H.
    + discriminate.
    + inversion H; congruence.
    + constructor; [assumption | now apply IH].
    + inversion H; now apply IH.
Qed.

(** The head of a filtered list is the first element that passes. *)
Lemma filter_head (A : Type) (f : A -> bool) (l : list A) (x : A) (rest : list A) :
  filter f l = x :: rest ->
  exists before after,
    l = (before ++ x :: after)%list /\
    Forall (fun y => f y = false) before /\ f x = true /\
    rest = filter f after.
Proof.
  induction l as [|y l IH]; simpl; intros H; [discriminate|].
  destruct (f y) eqn:Hy.
  - injection H as -> <-. exists [], l. repeat split; auto.
  - destruct (IH H) as (before & after & -> & Hb & Hx & Hr).
    exists (y :: before), after. repeat split; auto.
Qed.

Lemma filter_first (A : Type) (f : A -> bool) (before after : list A) (x : A) :
  Forall (fun y => f y = false) before -> f x = true ->
  filter f (before ++ x :: after)%list = x :: filter f after.
Proof.
  induction 1 as [|y before Hy _ IH]; simpl; intros Hx.
  - now rewrite Hx.
  - rewrite Hy. now apply IH.
Qed.

Lemma Forall_map_iff (A B : Type) (g : A -> B) (P : B -> Prop) (l : list A) :
  Forall P (map g l) <-> Forall (fun x => P (g x)) l.
Proof.
  induction l as [|x l IH]; simpl; split; intros H;
    try constructor; inversion H; subst; try assumption; now apply IH.
Qed.

(* ------------------------------------------------------------------ *)
(** *** [find_room] and its outcomes *)

(** Once both queries returned non-empty frames, the call is decided by the
    survivors of the join. *)
Lemma find_room_after_queries (building_name pbf_path : value) (s : string)
  (buildings rooms : GeoDataFrame) :
  building_query building_name = Return buildings ->
  buildings <> [] ->
  room_query (upper s) = Return rooms ->
  rooms <> [] ->
  find_room building_name (VStr s) pbf_path =
    if empty (rooms_in_building buildings rooms) then
      Return (ErrorResult ("Room '" ++ upper s ++ "' not found in "
                           ++ py_str building_name))
    else
      match filter (is_exact_match (upper s))
                   (map format_row (rooms_in_building buildings rooms)) with
      | [] => Return (ErrorResult ("Exact match for '" ++ upper s ++ "' not found"))
      | first :: _ => Return (MatchResult first)
      end.
Proof.
  intros Hb Hnb Hr Hnr.
  unfold find_room. unfold building_query in Hb. rewrite Hb. simpl.
  apply empty_false_iff in Hnb. rewrite Hnb.
  unfold room_query in Hr. rewrite Hr. simpl.
  apply empty_false_iff in Hnr. rewrite Hnr.
  reflexivity.
Qed.

Lemma find_room_sound (building_name room_identifier pbf_path : value)
  (result : find_room_result) :
  find_room building_name room_identifier pbf_path = Return result ->
  find_room_outcome building_name room_identifier result.
Proof.
  intros H.
  destruct (building_query building_name) as [e|buildings] eqn:Hb.
  { unfold find_room in H. unfold building_query in Hb. rewrite Hb in H.
    discriminate. }
  destruct buildings as [|b0 bs].
  { unfold find_room in H. unfold building_query in Hb. rewrite Hb in H.
    simpl in H. injection H as <-. now constructor. }
  destruct room_identifier as [| | | |s| |];
    try (unfold find_room in H; unfold building_query in Hb; rewrite Hb in H;
         simpl in H; discriminate).
  destruct (room_query (upper s)) as [e|rooms] eqn:Hr.
  { unfold find_room in H. unfold building_query in Hb. rewrite Hb in H.
    simpl in H. unfold room_query in Hr. rewrite Hr in H. discriminate. }
  destruct rooms as [|r0 rs].
  { unfold find_room in H. unfold building_query in Hb. rewrite Hb in H.
    simpl in H. unfold room_query in Hr. rewrite Hr in H. simpl in H.
    injection H as <-. eapply RoomNotFound; eauto. discriminate. }
  rewrite (@find_room_after_queries _ pbf_path _ _ (r0 :: rs) Hb) in H;
    try assumption; try discriminate.
  destruct (rooms_in_building (b0 :: bs) (r0 :: rs)) as [|x survivors] eqn:Hs.
  { simpl in H. injection H as <-.
    eapply RoomNotFoundInBuilding; eauto; discriminate. }
  cbn [empty] in H.
  destruct (filter (is_exact_match (upper s)) (map format_row (x :: survivors)))
    as [|first rest] eqn:Hf.
  - injection H as <-.
    eapply ExactMatchNotFound; eauto; try discriminate.
    + rewrite Hs. discriminate.
    + rewrite Hs. apply filter_none in Hf. now apply Forall_map_iff in Hf.
  - injection H as <-.
    apply filter_head in Hf. destruct Hf as (before & after & Hl & Hbefore & Hx & _).
    apply map_eq_app in Hl.
    destruct Hl as (before' & tail' & Hl & <- & Htail).
    apply map_eq_cons in Htail. destruct Htail as (selected & after' & -> & <- & <-).
    apply FirstExactMatch with (buildings := b0 :: bs) (rooms := r0 :: rs)
      (s := s) (before := before') (after := after'); try assumption;
      try reflexivity; try discriminate.
    + rewrite Hs. exact Hl.
    + now apply Forall_map_iff in Hbefore.
Qed.

Lemma find_room_complete (building_name room_identifier pbf_path : value)
  (result : find_room_result) :
  find_room_outcome building_name room_identifier result ->
  find_room building_name room_identifier pbf_path = Return result.
Proof.
  intros H. destruct H as
    [Hb
    |buildings s Hb Hnb -> Hr
    |buildings rooms s Hb Hnb -> Hr Hnr Hs
    |buildings rooms s Hb Hnb -> Hr Hnr Hs Hall
    |buildings rooms s before selected after Hb Hnb -> Hr Hnr Hs Hbefore Hsel].
  - unfold find_room. unfold building_query in Hb. now rewrite Hb.
  - unfold find_room. unfold building_query in Hb. rewrite Hb. simpl.
    apply empty_false_iff in Hnb. rewrite Hnb.
    unfold room_query in Hr. now rewrite Hr.
  - rewrite (@find_room_after_queries _ pbf_path _ _ _ Hb Hnb Hr Hnr). now rewrite Hs.
  - rewrite (@find_room_after_queries _ pbf_path _ _ _ Hb Hnb Hr Hnr).
    apply empty_false_iff in Hs. rewrite Hs.
    apply Forall_map_iff with (g := format_row)
      (P := fun m => is_exact_match (upper s) m = false) in Hall.
    apply filter_none in Hall. now rewrite Hall.
  - rewrite (@find_room_after_queries _ pbf_path _ _ _ Hb Hnb Hr Hnr). rewrite Hs.
    replace (empty (before ++ selected :: after)%list) with false
      by (now destruct before).
    rewrite map_app. simpl map.
    rewrite filter_first; [reflexivity | | assumption].
    now apply Forall_map_iff.
Qed.


(* ------------------------------------------------------------------ *)
(** *** The room match *)

Lemma room_nodes_point (c : coord) : room_nodes (Point c) = [].
Proof. reflexivity. Qed.

Lemma room_nodes_polygon (p : polygon) : room_nodes (Polygon p) = exterior p.
Proof. reflexivity. Qed.

Lemma room_nodes_multipolygon (geoms : list polygon) :
  room_nodes (MultiPolygon geoms) = concat (map exterior geoms).
Proof. reflexivity. Qed.


(** C2.  A room match returned by [find_room] carries a [ref] tag or a
    [name] tag whose text is exactly the requested identifier in upper
    case; with an idempotent [upper], the tag and the identifier are then
    also equal once both are put in upper case. *)
Theorem room_match_is_exact (building_name room_identifier pbf_path : value)
  (m : RoomMatch) :
  find_room building_name room_identifier pbf_path = Return (MatchResult m) ->
  exists s : string,
    room_identifier = VStr s /\
    (py_str (tag_ref (tags m)) = upper s \/ py_str (tag_name (tags m)) = upper s) /\
    ((forall t, upper (upper t) = upper t) ->
     upper (py_str (tag_ref (tags m))) = upper s \/
     upper (py_str (tag_name (tags m))) = upper s).
Proof.
  intros H. apply find_room_sound in H.
  inversion H as [| | | |buildings rooms s before selected after
                         Hb Hnb Hid Hr Hnr Hs Hbefore Hsel Hm].
  subst. exists s. split; [reflexivity|].
  unfold is_exact_match in Hsel. apply orb_true_iff in Hsel.
  destruct Hsel as [Hsel|Hsel]; apply String.eqb_eq in Hsel; split; auto;
    intros Hidem; rewrite Hsel, Hidem; auto.
Qed.

(** C8.  When the survivors of the join are [before ++ selected :: after],
    no row of [before] passes the exact-match filter and [selected] does,
    [find_room] returns [selected], whatever [after] holds: no other key,
    such as the level, orders the survivors. *)
Theorem first_match_wins (building_name pbf_path : value) (s : string)
  (buildings rooms : GeoDataFrame)
  (before : list room_row) (selected : room_row) (after : list room_row) :
  building_query building_name = Return buildings ->
  buildings <> [] ->
  room_query (upper s) = Return rooms ->
  rooms <> [] ->
  rooms_in_building buildings rooms = (before ++ selected :: after)%list ->
  Forall (fun r => is_exact_match (upper s) (format_row r) = false) before ->
  is_exact_match (upper s) (format_row selected) = true ->
  find_room building_name (VStr s) pbf_path
    = Return (MatchResult (format_row selected)).
Proof.
  intros Hb Hnb Hr Hnr Hs Hbefore Hsel.
  apply find_room_complete.
  now apply FirstExactMatch with (buildings := buildings) (rooms := rooms)
    (s := s) (before := before) (after := after).
Qed.

(** C10.  A failure of [find_room] on a building name [b] and an identifier
    [s] carries one of four messages: the building message quotes [b] as
    given, and each of the three room messages quotes [upper s], not [s]. *)
Theorem failure_messages_upper (b s : string) (pbf_path : value) (msg : string) :
  find_room (VStr b) (VStr s) pbf_path = Return (ErrorResult msg) ->
  msg = "Building '" ++ b ++ "' not found" \/
  msg = "Room '" ++ upper s ++ "' not found in dataset" \/
  msg = "Room '" ++ upper s ++ "' not found in " ++ b \/
  msg = "Exact match for '" ++ upper s ++ "' not found".
Proof.
  intros H. apply find_room_sound in H.
  inversion H as
    [Hb Hm
    |buildings s' Hb Hnb Hid Hr Hm
    |buildings rooms s' Hb Hnb Hid Hr Hnr Hs Hm
    |buildings rooms s' Hb Hnb Hid Hr Hnr Hs Hall Hm
    |]; try (injection Hid as <-); auto.
Qed.

(** C6.  With an idempotent [upper], [find_room] cannot tell an identifier
    from its upper-case form. *)
Theorem find_room_case_insensitive
  (upper_idempotent : forall s, upper (upper s) = upper s)
  (building_name pbf_path : value) (s : string) :
  find_room building_name (VStr s) pbf_path
    = find_room building_name (VStr (upper s)) pbf_path.
Proof.
  unfold find_room, str_upper. now rewrite upper_idempotent.
Qed.

(* ------------------------------------------------------------------ *)
(** *** The representative geometry *)

(** The ["centroid"] column holds [centroid_lambda] of each candidate. *)
Lemma with_centroids_In (rooms : GeoDataFrame) (r : room_row) :
  In r (with_centroids rooms) <->
  In (base r) rooms /\ centroid_col r = centroid_lambda (row_geometry (base r)).
Proof.
  unfold with_centroids. rewrite in_map_iff. split.
  - intros (x & <- & Hx). simpl. auto.
  - intros (Hin & Hc). exists (base r). split; [|assumption].
    destruct r as [b c]. simpl in *. now subst.
Qed.

(** C3, as the code has it.  The geometry joined against the building is the
    centroid for a polygon and for a multipolygon, and the geometry itself
    for every other type: a point, and also a line. *)
Theorem centroid_lambda_cases (g : geometry) :
  (forall c, g = Point c -> centroid_lambda g = Point c) /\
  (geom_type g = "Polygon" \/ geom_type g = "MultiPolygon" ->
   centroid_lambda g = Point (centroid geo g)) /\
  (geom_type g <> "Polygon" -> geom_type g <> "MultiPolygon" ->
   centroid_lambda g = g) /\
  (forall rooms r, In r (with_centroids rooms) ->
                   centroid_col r = centroid_lambda (row_geometry (base r))).
Proof.
  repeat split.
  - now intros c ->.
  - intros [H|H]; destruct g; try discriminate; reflexivity.
  - intros H1 H2. destruct g; try reflexivity; now contradiction.
  - intros rooms r Hr. now apply with_centroids_In in Hr.
Qed.

(* ------------------------------------------------------------------ *)
(** *** The failures of [find_room], in order *)






(* ------------------------------------------------------------------ *)
(** *** The handlers *)

Lemma has_error_key (result : find_room_result) :
  has_key "error" (result_dict result) = true <-> exists msg, result = ErrorResult msg.
Proof.
  destruct result as [msg|m]; simpl; split.
  - intros _. now exists msg.
  - reflexivity.
  - discriminate.
  - intros [msg H]. discriminate.
Qed.

(** A body with both keys reaches [find_room], and the answer follows its
    result. *)
Lemma handle_find_room_valid (request : Request) (items : list (string * value))
  (building room : value) :
  get_json request = Return (VDict items) ->
  lookup "building" items = Some building ->
  lookup "room" items = Some room ->
  handle_find_room request =
    match find_room building room PBF_PATH with
    | Return result =>
        {| body := VDict (result_dict result);
           status := if has_key "error" (result_dict result) then 404 else 200 |}
    | Raise e =>
        {| body := VDict [("error", VStr ("Server error: " ++ e))]; status := 500 |}
    end.
Proof.
  intros Hjson Hbuilding Hroom. unfold handle_find_room. rewrite Hjson.
  destruct items as [|i items]; [discriminate Hbuilding|].
  cbn [bind truthy negb py_in getitem]. unfold has_key at 1 2.
  rewrite Hbuilding, Hroom. cbn [bind negb].
  destruct (find_room building room PBF_PATH) as [e|result]; [reflexivity|].
  cbn [bind]. now destruct (has_key "error" (result_dict result)).
Qed.

(** X3.  What [handle_find_room] answers when the body is a JSON object, is
    missing, or is another falsy value: 500 with the text of the exception
    when the body cannot be read; 400 when the body is falsy or an object
    without [building] or without [room]; and for an object with both, 404
    with the error dictionary, 200 with the match, or 500, as [find_room]
    fails, finds or raises. *)
Lemma handle_find_room_on_objects (request : Request) :
  (forall e, get_json request = Raise e ->
     handle_find_room request
       = {| body := VDict [("error", VStr ("Server error: " ++ e))];
            status := 500 |})
  /\
  (forall data, get_json request = Return data -> truthy data = false ->
     handle_find_room request
       = {| body := VDict [("error", VStr "Missing required parameters")];
            status := 400 |})
  /\
  (forall items, get_json request = Return (VDict items) ->
     has_key "building" items = false \/ has_key "room" items = false ->
     handle_find_room request
       = {| body := VDict [("error", VStr "Missing required parameters")];
            status := 400 |})
  /\
  (forall items building room,
     get_json request = Return (VDict items) ->
     lookup "building" items = Some building ->
     lookup "room" items = Some room ->
     (forall msg, find_room building room PBF_PATH = Return (ErrorResult msg) ->
        handle_find_room request
          = {| body := VDict [("error", VStr msg)]; status := 404 |}) /\
     (forall m, find_room building room PBF_PATH = Return (MatchResult m) ->
        handle_find_room request
          = {| body := VDict (match_dict m); status := 200 |}) /\
     (forall e, find_room building room PBF_PATH = Raise e ->
        handle_find_room request
          = {| body := VDict [("error", VStr ("Server error: " ++ e))];
               status := 500 |})).
Proof.
  split; [|split; [|split]].
  - intros e Hjson. unfold handle_find_room. now rewrite Hjson.
  - intros data Hjson Hfalsy. unfold handle_find_room. rewrite Hjson.
    cbn [bind]. now rewrite Hfalsy.
  - intros items Hjson Hmissing. unfold handle_find_room. rewrite Hjson.
    destruct items as [|i items]; [reflexivity|].
    cbn [bind truthy negb py_in].
    destruct Hmissing as [Hk|Hk]; rewrite Hk; [reflexivity|].
    now destruct (has_key "building" (i :: items)).
  - intros items building room Hjson Hbuilding Hroom.
    rewrite (handle_find_room_valid _ Hjson Hbuilding Hroom).
    repeat split.
    + now intros msg ->.
    + now intros m ->.
    + now intros e ->.
Qed.

(** A truthy body that is a number or a boolean is not a container: the
    membership test raises and the answer is 500. *)
Lemma handle_find_room_scalar_body (request : Request) (data : value) :
  get_json request = Return data ->
  truthy data = true ->
  type_name data = "bool" \/ type_name data = "int" \/ type_name data = "float" ->
  handle_find_room request
    = {| body := VDict [("error",
                         VStr ("Server error: argument of type '" ++ type_name data
                               ++ "' is not iterable"))];
         status := 500 |}.
Proof.
  intros Hjson Htruthy Htype. unfold handle_find_room. rewrite Hjson.
  cbn [bind]. rewrite Htruthy. cbn [negb].
  destruct data; try reflexivity;
    destruct Htype as [H|[H|H]]; discriminate H.
Qed.

(** C5, where the code departs from it.  A body that is a JSON number other
    than zero has neither key, yet the answer is not 400: the membership
    test raises on it and the handler answers 500. *)
Theorem handle_find_room_number_body (p : string) (n : Z) :
  n <> 0%Z ->
  handle_find_room {| path := p; get_json := Return (VInt n) |}
    = {| body := VDict [("error",
                         VStr "Server error: argument of type 'int' is not iterable")];
         status := 500 |}.
Proof.
  intros Hn.
  apply (@handle_find_room_scalar_body
           {| path := p; get_json := Return (VInt n) |} (VInt n)).
  - reflexivity.
  - simpl. apply negb_true_iff. now apply Z.eqb_neq.
  - right. left. reflexivity.
Qed.

(** A body that is a JSON string naming both keys passes the validation and
    fails at the first subscript. *)
Lemma handle_find_room_string_body (p : string) :
  handle_find_room {| path := p; get_json := Return (VStr "building room") |}
    = {| body := VDict [("error", VStr "Server error: string indices must be integers")];
         status := 500 |}.
Proof. reflexivity. Qed.


(* ------------------------------------------------------------------ *)
(** *** Sorting the items of an object *)

Lemma leb_iff (a b : string) :
  String.leb a b = true <-> a = b \/ String_as_OT.lt a b.
Proof.
  unfold String.leb. destruct (String.compare a b) eqn:H.
  - apply String_as_OT.cmp_eq in H. split; [now left | reflexivity].
  - apply String_as_OT.cmp_lt in H. split; [now right | reflexivity].
  - split; [discriminate|]. intros [Heq|Hlt].
    + apply String_as_OT.cmp_eq in Heq. unfold String_as_OT.cmp in Heq.
      rewrite Heq in H. discriminate.
    + apply String_as_OT.cmp_lt in Hlt. unfold String_as_OT.cmp in Hlt.
      rewrite Hlt in H. discriminate.
Qed.

Lemma leb_trans (a b c : string) :
  String.leb a b = true -> String.leb b c = true -> String.leb a c = true.
Proof.
  rewrite !leb_iff. intros [->|Hab] [->|Hbc]; auto.
  right. eapply String_as_OT.lt_trans; eassumption.
Qed.

Lemma leb_false_flip (a b : string) :
  String.leb a b = false -> String.leb b a = true.
Proof.
  intros H. destruct (String.leb_total a b) as [H'|H']; congruence.
Qed.

(** Two items with different keys can be inserted in either order. *)
Lemma insert_item_comm (A : Type) (a b : string * A) (l : list (string * A)) :
  fst a <> fst b ->
  insert_item a (insert_item b l) = insert_item b (insert_item a l).
Proof.
  intros Hab. induction l as [|h t IH]; simpl.
  - destruct (String.leb (fst a) (fst b)) eqn:H1,
             (String.leb (fst b) (fst a)) eqn:H2; try reflexivity.
    + contradiction Hab. now apply String.leb_antisym.
    + apply leb_false_flip in H1. congruence.
  - destruct (String.leb (fst b) (fst h)) eqn:Hbh,
             (String.leb (fst a) (fst h)) eqn:Hah; simpl;
      rewrite ?Hbh, ?Hah.
    + destruct (String.leb (fst a) (fst b)) eqn:H1,
               (String.leb (fst b) (fst a)) eqn:H2; try reflexivity.
      * contradiction Hab. now apply String.leb_antisym.
      * apply leb_false_flip in H1. congruence.
    + destruct (String.leb (fst a) (fst b)) eqn:H1; [|reflexivity].
      rewrite (leb_trans _ _ _ H1 Hbh) in Hah. discriminate.
    + destruct (String.leb (fst b) (fst a)) eqn:H2; [|reflexivity].
      rewrite (leb_trans _ _ _ H2 Hah) in Hbh. discriminate.
    + now rewrite IH.
Qed.

(** The sorted items depend on the set of items only. *)
Lemma sort_items_permutation (A : Type) (l1 l2 : list (string * A)) :
  Permutation l1 l2 -> NoDup (map fst l1) -> sort_items l1 = sort_items l2.
Proof.
  induction 1 as [|x l l' Hp IH|x y l|l l' l'' Hp1 IH1 Hp2 IH2]; intros Hnd.
  - reflexivity.
  - simpl in *. inversion Hnd; subst. now rewrite IH.
  - simpl in *. inversion Hnd as [|? ? Hy Hnd']; subst.
    apply insert_item_comm. intros Heq. apply Hy. left. now symmetry.
  - rewrite IH1 by assumption. apply IH2.
    eapply Permutation_NoDup; [|exact Hnd]. now apply Permutation_map.
Qed.

Lemma insert_item_map_snd (A B : Type) (f : A -> B) (kv : string * A)
  (l : list (string * A)) :
  insert_item (fst kv, f (snd kv)) (map (fun x => (fst x, f (snd x))) l)
    = map (fun x => (fst x, f (snd x))) (insert_item kv l).
Proof.
  induction l as [|h t IH]; simpl; [reflexivity|].
  destruct (String.leb (fst kv) (fst h)); simpl; [reflexivity|now rewrite IH].
Qed.

(** Serializing the values and then sorting the items gives what sorting the
    items and then serializing the values gives. *)
Lemma sort_items_map_snd (A B : Type) (f : A -> B) (l : list (string * A)) :
  sort_items (map (fun x => (fst x, f (snd x))) l)
    = map (fun x => (fst x, f (snd x))) (sort_items l).
Proof.
  induction l as [|h t IH]; simpl; [reflexivity|].
  now rewrite IH, insert_item_map_snd.
Qed.

(* ------------------------------------------------------------------ *)
(** *** The cache key *)

Lemma distinct_keys_list (items : list value) :
  distinct_keys (VList items) <-> Forall distinct_keys items.
Proof.
  induction items as [|x rest IH]; simpl.
  - split; constructor.
  - split.
    + intros [Hx Hrest]. constructor; [assumption|now apply IH].
    + intros H. inversion H; subst. split; [assumption|now apply IH].
Qed.

Lemma distinct_keys_dict (items : list (string * value)) :
  distinct_keys (VDict items) <->
  NoDup (map fst items) /\ Forall (fun kv => distinct_keys (snd kv)) items.
Proof.
  simpl. apply and_iff_compat_l.
  induction items as [|x rest IH]; simpl.
  - split; constructor.
  - split.
    + intros [Hx Hrest]. constructor; [assumption|now apply IH].
    + intros H. inversion H; subst. split; [assumption|now apply IH].
Qed.

(** The serialization with sorted keys does not see the order of keys. *)
Lemma dumps_same_modulo_key_order (v1 : value) :
  forall v2, same_modulo_key_order v1 v2 -> distinct_keys v1 -> dumps v1 = dumps v2.
Proof.
  induction v1 as [|b|n|f|s|items IH|items IH] using value_nested_ind;
    intros v2 Hsame Hkeys; inversion Hsame as [|? l2 Hl|? d1' d2 Hperm Hd]; subst;
    try reflexivity.
  - (* lists *)
    apply distinct_keys_list in Hkeys. simpl. do 3 f_equal.
    clear Hsame. induction Hl as [|x y l1 l2' Hxy Hl IHl]; [reflexivity|].
    inversion IH; subst. inversion Hkeys; subst.
    simpl. f_equal; auto.
  - (* dictionaries *)
    apply distinct_keys_dict in Hkeys. destruct Hkeys as [Hnd Hvals].
    simpl. do 4 f_equal.
    rewrite (@sort_items_permutation _ _
               (map (fun kv => (fst kv, dumps (snd kv))) d1')).
    + f_equal.
      assert (IH' : Forall (fun kv => forall v2, same_modulo_key_order (snd kv) v2 ->
                              distinct_keys (snd kv) -> dumps (snd kv) = dumps v2) d1')
        by (eapply Permutation_Forall; eassumption).
      assert (Hvals' : Forall (fun kv => distinct_keys (snd kv)) d1')
        by (eapply Permutation_Forall; eassumption).
      clear Hsame Hperm IH Hvals Hnd.
      induction Hd as [|x y l1 l2 [Hk Hv] Hd IHd]; [reflexivity|].
      inversion IH'; subst. inversion Hvals'; subst.
      simpl. f_equal; [|auto]. rewrite Hk. f_equal. auto.
    + now apply Permutation_map.
    + rewrite map_map. simpl. exact Hnd.
Qed.

Lemma truthy_same_modulo_key_order (v1 v2 : value) :
  same_modulo_key_order v1 v2 -> truthy v1 = truthy v2.
Proof.
  intros H. inversion H as [|l1 l2 Hl|d1 d1' d2 Hperm Hd]; subst.
  - reflexivity.
  - now destruct Hl.
  - simpl. destruct Hd.
    + apply Permutation_sym, Permutation_nil in Hperm. now subst.
    + destruct d1; [|reflexivity].
      apply Permutation_nil in Hperm. discriminate.
Qed.

(** C7, as the code has it.  The key is the path alone when reading the body
    raises and when the body read is falsy (missing, or an empty object or
    list, an empty string, zero or false); otherwise it is the path, a
    colon and the digest of the body serialized with sorted keys.  Two
    bodies that differ only in the order of keys get the same key. *)
Theorem cache_key_cases (request : Request) :
  (forall e, get_json request = Raise e ->
     make_request_body_cache_key request = path request)
  /\
  (forall json_data, get_json request = Return json_data ->
     truthy json_data = false ->
     make_request_body_cache_key request = path request)
  /\
  (forall json_data, get_json request = Return json_data ->
     truthy json_data = true ->
     make_request_body_cache_key request
       = path request ++ ":" ++ md5_hexdigest (dumps json_data))
  /\
  (forall body1 body2,
     same_modulo_key_order body1 body2 -> distinct_keys body1 ->
     make_request_body_cache_key {| path := path request; get_json := Return body1 |}
       = make_request_body_cache_key
           {| path := path request; get_json := Return body2 |}).
Proof.
  unfold make_request_body_cache_key. repeat split.
  - now intros e ->.
  - intros json_data -> Hf. simpl. now rewrite Hf.
  - intros json_data -> Ht. simpl. now rewrite Ht.
  - intros body1 body2 Hsame Hkeys. simpl.
    rewrite <- (truthy_same_modulo_key_order Hsame).
    now rewrite (dumps_same_modulo_key_order Hsame Hkeys).
Qed.

(* ------------------------------------------------------------------ *)
(** *** When [find_room] raises *)


(* ------------------------------------------------------------------ *)
(** *** Matches and candidates *)

Lemma filter_some (A : Type) (f : A -> bool) (l : list A) (x : A) :
  In x l -> f x = true -> filter f l <> [].
Proof.
  intros Hin Hx Hnone. apply filter_none in Hnone.
  rewrite Forall_forall in Hnone. rewrite (Hnone x Hin) in Hx. discriminate.
Qed.

Lemma is_exact_match_row (room_identifier : string) (r : room_row) :
  is_exact_match room_identifier (format_row r) = true <->
  py_str (row_ref (base r)) = room_identifier \/
  py_str (row_name (base r)) = room_identifier.
Proof.
  unfold is_exact_match, format_row. cbn [tags tag_ref tag_name].
  rewrite orb_true_iff, !String.eqb_eq. reflexivity.
Qed.

(** X7.  With a join that keeps exactly the rows within the building, every
    match returned is the formatting of a row [c] of the candidate query
    whose representative geometry lies within the union of the building and
    whose [ref] or [name] is the identifier in upper case: the identifier and
    tags are those of [c], the position is the centroid of the geometry of
    [c] itself, and the node list is empty unless [c] is a polygon or a
    multipolygon. *)
Theorem match_comes_from_candidate (building_name room_identifier pbf_path : value)
  (m : RoomMatch) :
  sjoin_within_inner geo ->
  find_room building_name room_identifier pbf_path = Return (MatchResult m) ->
  exists (buildings rooms : GeoDataFrame) (s : string) (c : row),
    building_query building_name = Return buildings /\
    room_identifier = VStr s /\
    room_query (upper s) = Return rooms /\
    In c rooms /\
    within geo (centroid_lambda (row_geometry c)) (building_geom buildings) = true /\
    (py_str (row_ref c) = upper s \/ py_str (row_name c) = upper s) /\
    osm_id m = row_id c /\
    tags m = {| tag_name := row_name c; tag_ref := row_ref c;
                tag_level := row_level c |} /\
    latitude m = snd (centroid geo (row_geometry c)) /\
    longitude m = fst (centroid geo (row_geometry c)) /\
    (geom_type (row_geometry c) <> "Polygon" ->
     geom_type (row_geometry c) <> "MultiPolygon" -> nodes m = []).
Proof.
  intros Hjoin H. apply find_room_sound in H.
  inversion H as [| | | |buildings rooms s before selected after
                         Hb Hnb Hid Hr Hnr Hs Hbefore Hsel Hm].
  subst.
  assert (Hin : In selected (rooms_in_building buildings rooms))
    by (rewrite Hs; apply in_or_app; right; now left).
  apply Hjoin in Hin. destruct Hin as [Hin Hwithin].
  apply with_centroids_In in Hin. destruct Hin as [Hin Hc].
  exists buildings, rooms, s, (base selected).
  rewrite Hc in Hwithin. apply is_exact_match_row in Hsel.
  repeat split; try assumption.
  intros Hp Hmp. cbn [format_row nodes].
  destruct (row_geometry (base selected)); try reflexivity;
    [now contradiction Hp | now contradiction Hmp].
Qed.

(** X8.  With such a join, and once both queries have returned, [find_room]
    returns a match exactly when some candidate has its representative
    geometry within the union of the building and a [ref] or [name] equal to
    the identifier in upper case. *)
Theorem find_room_finds_iff (building_name pbf_path : value) (s : string)
  (buildings rooms : GeoDataFrame) :
  sjoin_within_inner geo ->
  building_query building_name = Return buildings ->
  buildings <> [] ->
  room_query (upper s) = Return rooms ->
  ((exists m, find_room building_name (VStr s) pbf_path = Return (MatchResult m))
   <->
   exists c, In c rooms /\
     within geo (centroid_lambda (row_geometry c)) (building_geom buildings) = true /\
     (py_str (row_ref c) = upper s \/ py_str (row_name c) = upper s)).
Proof.
  intros Hjoin Hb Hnb Hr. split.
  - intros [m H]. apply find_room_sound in H.
    inversion H as [| | | |buildings' rooms' s' before selected after
                           Hb' Hnb' Hid Hr' Hnr Hs Hbefore Hsel Hm].
    injection Hid as <-.
    rewrite Hb in Hb'. injection Hb' as <-.
    rewrite Hr in Hr'. injection Hr' as <-.
    assert (Hin : In selected (rooms_in_building buildings rooms))
      by (rewrite Hs; apply in_or_app; right; now left).
    apply Hjoin in Hin. destruct Hin as [Hin Hwithin].
    apply with_centroids_In in Hin. destruct Hin as [Hin Hc].
    exists (base selected). rewrite Hc in Hwithin.
    apply is_exact_match_row in Hsel. auto.
  - intros (c & Hin & Hwithin & Hexact).
    assert (Hnr : rooms <> []) by (intros ->; exact Hin).
    rewrite (@find_room_after_queries _ pbf_path _ _ _ Hb Hnb Hr Hnr).
    set (r := {| base := c; centroid_col := centroid_lambda (row_geometry c) |}).
    assert (Hr' : In r (rooms_in_building buildings rooms)).
    { apply Hjoin. split; [|exact Hwithin].
      apply with_centroids_In. split; [exact Hin|reflexivity]. }
    assert (Hne : empty (rooms_in_building buildings rooms) = false).
    { apply empty_false_iff. intros Hnil. rewrite Hnil in Hr'. exact Hr'. }
    rewrite Hne.
    assert (Hsome : filter (is_exact_match (upper s))
                      (map format_row (rooms_in_building buildings rooms)) <> []).
    { apply filter_some with (x := format_row r).
      - now apply in_map.
      - now apply is_exact_match_row. }
    destruct (filter _ _) as [|first rest]; [now contradiction Hsome|].
    now exists first.
Qed.

(** X9.  With an idempotent [upper], a match returned by [find_room] has a
    [ref] or a [name] whose text is already in upper case: a room whose tags
    are stored with lower-case letters is never returned, however the
    identifier is written. *)
Theorem match_tag_is_upper_case (building_name room_identifier pbf_path : value)
  (m : RoomMatch) :
  (forall t, upper (upper t) = upper t) ->
  find_room building_name room_identifier pbf_path = Return (MatchResult m) ->
  upper (py_str (tag_ref (tags m))) = py_str (tag_ref (tags m)) \/
  upper (py_str (tag_name (tags m))) = py_str (tag_name (tags m)).
Proof.
  intros Hidem H. apply find_room_sound in H.
  inversion H as [| | | |buildings rooms s before selected after
                         Hb Hnb Hid Hr Hnr Hs Hbefore Hsel Hm].
  subst. apply is_exact_match_row in Hsel.
  cbn [format_row tags tag_ref tag_name].
  destruct Hsel as [Hsel|Hsel]; [left|right]; rewrite Hsel; apply Hidem.
Qed.


(* ------------------------------------------------------------------ *)
(** *** Every answer of [handle_find_room] *)

(** X5.  Every answer of [handle_find_room] is of one of two kinds.  It is
    the room-match dictionary with status 200, and then the body read was a
    JSON object with both keys and [find_room] returned that match on their
    values; or it is a dictionary with the single key [error] and status
    400, 404 or 500.  In particular no body that is not an object is ever
    answered 200. *)
Theorem handle_find_room_answers (request : Request) :
  (exists items building room m,
     get_json request = Return (VDict items) /\
     lookup "building" items = Some building /\
     lookup "room" items = Some room /\
     find_room building room PBF_PATH = Return (MatchResult m) /\
     handle_find_room request
       = {| body := VDict (match_dict m); status := 200 |})
  \/
  (exists msg code,
     handle_find_room request
       = {| body := VDict [("error", VStr msg)]; status := code |} /\
     (code = 400 \/ code = 404 \/ code = 500)%Z).
Proof.
  destruct (get_json request) as [e|data] eqn:Hjson.
  { right. exists ("Server error: " ++ e), 500%Z.
    unfold handle_find_room. rewrite Hjson. auto. }
  destruct (truthy data) eqn:Htruthy.
  2:{ right. exists "Missing required parameters", 400%Z.
      unfold handle_find_room. rewrite Hjson. cbn [bind]. rewrite Htruthy. auto. }
  destruct data as [|b|n|f|s|items|items]; try discriminate Htruthy.
  - right. unfold handle_find_room. rewrite Hjson. cbn [bind]. rewrite Htruthy.
    cbn. do 2 eexists. split; [reflexivity | auto].
  - right. unfold handle_find_room. rewrite Hjson. cbn [bind]. rewrite Htruthy.
    cbn. do 2 eexists. split; [reflexivity | auto].
  - right. unfold handle_find_room. rewrite Hjson. cbn [bind]. rewrite Htruthy.
    cbn. do 2 eexists. split; [reflexivity | auto].
  - right. unfold handle_find_room. rewrite Hjson. cbn [bind]. rewrite Htruthy.
    cbn [negb py_in bind getitem].
    destruct (contains "building" s); cbn [negb bind];
      [destruct (contains "room" s); cbn [negb bind]|];
      eexists; eexists; split; try reflexivity; auto.
  - right. unfold handle_find_room. rewrite Hjson. cbn [bind]. rewrite Htruthy.
    cbn [negb py_in bind getitem].
    destruct (existsb _ items); cbn [negb bind];
      [destruct (existsb _ items); cbn [negb bind]|];
      eexists; eexists; split; try reflexivity; auto.
  - destruct (lookup "building" items) as [building|] eqn:Hbuilding.
    2:{ right. exists "Missing required parameters", 400%Z.
        unfold handle_find_room. rewrite Hjson. cbn [bind]. rewrite Htruthy.
        cbn [negb py_in bind]. unfold has_key. rewrite Hbuilding. auto. }
    destruct (lookup "room" items) as [room|] eqn:Hroom.
    2:{ right. exists "Missing required parameters", 400%Z.
        unfold handle_find_room. rewrite Hjson. cbn [bind]. rewrite Htruthy.
        cbn [negb py_in bind]. unfold has_key. rewrite Hbuilding, Hroom. auto. }
    rewrite (handle_find_room_valid _ Hjson Hbuilding Hroom).
    destruct (find_room building room PBF_PATH) as [e|[msg|m]] eqn:Hfind.
    + right. do 2 eexists. split; [reflexivity | auto].
    + right. exists msg, 404%Z. auto.
    + left. exists items, building, room, m. auto.
Qed.



(** X14.  A failure of the parser reaches the two endpoints differently:
    [handle_find_room] answers 500 with the text of the exception, while
    [handle_rooms], which has no [try], lets the exception through. *)
Theorem parser_failure_on_both_endpoints (e : string) :
  (forall request items building room,
     get_json request = Return (VDict items) ->
     lookup "building" items = Some building ->
     lookup "room" items = Some room ->
     building_query building = Raise e ->
     handle_find_room request
       = {| body := VDict [("error", VStr ("Server error: " ++ e))];
            status := 500 |})
  /\
  (get_data_by_custom_criteria get_osm_parser
     [("building", [VStr "university"])] None "keep" true true = Raise e ->
   handle_rooms = Raise e).
Proof.
  split.
  - intros request items building room Hjson Hbuilding Hroom Hfail.
    rewrite (handle_find_room_valid _ Hjson Hbuilding Hroom).
    unfold find_room. unfold building_query in Hfail. now rewrite Hfail.
  - intros Hfail. unfold handle_rooms. now rewrite Hfail.
Qed.

(* ------------------------------------------------------------------ *)
(** *** More on the cache key *)

Lemma append_not_self (p : string) (c : ascii) (t : string) : p ++ String c t <> p.
Proof.
  induction p as [|a p IH]; simpl; intros H; [discriminate H|].
  injection H as H. now apply IH.
Qed.

(** X11.  The key is the bare path exactly when reading the body raises or
    the body read is falsy: a request with a truthy body never shares the
    cache slot of the body-less requests, whatever the digest. *)
Theorem cache_key_is_path_iff (request : Request) :
  make_request_body_cache_key request = path request <->
  (exists e, get_json request = Raise e) \/
  (exists json_data, get_json request = Return json_data /\ truthy json_data = false).
Proof.
  unfold make_request_body_cache_key.
  destruct (get_json request) as [e|json_data]; cbn [bind].
  - split; [intros _; left; now exists e | reflexivity].
  - destruct (truthy json_data) eqn:Htruthy; cbn [negb].
    + split.
      * intros H. now apply append_not_self in H.
      * intros [[e H]|(d & H & Hd)]; [discriminate H|].
        injection H as <-. rewrite Htruthy in Hd. discriminate Hd.
    + split; [intros _; right; now exists json_data | reflexivity].
Qed.

(** X12.  The key does not separate what the handler separates: a request
    whose body cannot be read and a request whose body is falsy get the
    same key, the path, and are answered 500 and 400. *)
Theorem cache_key_conflates_statuses (p e : string) (data : value) :
  truthy data = false ->
  make_request_body_cache_key {| path := p; get_json := Raise e |}
    = make_request_body_cache_key {| path := p; get_json := Return data |}
  /\ status (handle_find_room {| path := p; get_json := Raise e |}) = 500%Z
  /\ status (handle_find_room {| path := p; get_json := Return data |}) = 400%Z.
Proof.
  intros Hfalsy.
  unfold make_request_body_cache_key, handle_find_room. cbn [get_json path bind].
  now rewrite Hfalsy.
Qed.

Lemma insert_item_perm (A : Type) (kv : string * A) (l : list (string * A)) :
  Permutation (insert_item kv l) (kv :: l).
Proof.
  induction l as [|h t IH]; simpl; [reflexivity|].
  destruct (String.leb (fst kv) (fst h)); [reflexivity|].
  rewrite IH. apply perm_swap.
Qed.

Lemma sort_items_perm (A : Type) (l : list (string * A)) :
  Permutation (sort_items l) l.
Proof.
  induction l as [|h t IH]; simpl; [reflexivity|].
  rewrite insert_item_perm. now apply perm_skip.
Qed.

Lemma insert_item_sorted (A : Type) (kv : string * A) (l : list (string * A)) :
  StronglySorted (fun a b => String.leb (fst a) (fst b) = true) l ->
  StronglySorted (fun a b => String.leb (fst a) (fst b) = true) (insert_item kv l).
Proof.
  induction 1 as [|h t Hsorted IH Hh]; simpl.
  - repeat constructor.
  - destruct (String.leb (fst kv) (fst h)) eqn:Hle.
    + constructor; [now constructor|].
      constructor; [exact Hle|].
      eapply Forall_impl; [|exact Hh]. intros x Hx. cbv beta in *.
      eapply leb_trans; eassumption.
    + constructor; [exact IH|].
      eapply Permutation_Forall; [symmetry; apply insert_item_perm|].
      constructor; [now apply leb_false_flip | exact Hh].
Qed.

Lemma sort_items_sorted (A : Type) (l : list (string * A)) :
  StronglySorted (fun a b => String.leb (fst a) (fst b) = true) (sort_items l).
Proof.
  induction l as [|h t IH]; simpl; [constructor | now apply insert_item_sorted].
Qed.

(** X13.  The serialization of an object lists each of its members once, in
    ascending order of the keys, as [key: value] joined by commas. *)
Theorem dumps_object_sorted (items : list (string * value)) :
  exists sorted : list (string * value),
    Permutation sorted items /\
    StronglySorted (fun a b => String.leb (fst a) (fst b) = true) sorted /\
    dumps (VDict items)
      = "{" ++ String.concat ", "
                 (map (fun kv => encode_basestring (fst kv) ++ ": " ++ dumps (snd kv))
                      sorted)
            ++ "}".
Proof.
  exists (sort_items items).
  split; [apply sort_items_perm|]. split; [apply sort_items_sorted|].
  cbn [dumps]. rewrite sort_items_map_snd, map_map. reflexivity.
Qed.

End Service.

(* ================================================================== *)
(** ** Examples on the campus *)

Import Campus.

Lemma upper_char_idempotent (c : ascii) : upper_char (upper_char c) = upper_char c.
Proof. destruct c as [[] [] [] [] [] [] [] []]; reflexivity. Qed.

Lemma ascii_upper_idempotent (s : string) : ascii_upper (ascii_upper s) = ascii_upper s.
Proof.
  induction s as [|c s IH]; simpl; [reflexivity|].
  now rewrite upper_char_idempotent, IH.
Qed.

(** The bounding-box join keeps exactly the rows within the right geometry. *)
Lemma campus_join_law : sjoin_within_inner geo.
Proof.
  intros left g r. simpl. unfold keep_within. rewrite filter_In. simpl.
  now rewrite orb_false_r.
Qed.

#[local] Abbreviation find_room_on_campus building_name room_identifier :=
  (find_room ascii_upper plain_repr osm geo
     (VStr building_name) (VStr room_identifier) VNone).

(** A row of the join, with its ["centroid"] column. *)
#[local] Abbreviation joined r :=
  {| base := r; centroid_col := centroid_lambda geo (row_geometry r) |}.


Example atrium_nodes :
  nodes (format_row geo (joined atrium))
    = map coord_node (square 1 1 2 2 ++ square 6 6 8 8)%list
  /\ interiors wing_west = [square 1.25 1.25 1.75 1.75]
  /\ ~ In (coord_node (1.25, 1.25)%float) (nodes (format_row geo (joined atrium))).
Proof.
  split; [reflexivity|]. split; [reflexivity|].
  cbv. intros H.
  repeat (destruct H as [H|H]; [discriminate H|]). exact H.
Qed.

Example desk_nodes :
  find_room_on_campus "Engineering Hall" "p1"
    = Return (MatchResult (format_row geo (joined desk)))
  /\ nodes (format_row geo (joined desk)) = [].
Proof. split; reflexivity. Qed.

(** Asked for [a101], the service returns a room whose [ref] is [A101]. *)
Lemma room_match_is_exact_a101 :
  find_room_on_campus "Engineering Hall" "a101"
    = Return (MatchResult (format_row geo (joined a101_upper)))
  /\
  exists s : string,
    VStr "a101" = VStr s /\
    (py_str plain_repr (tag_ref (tags (format_row geo (joined a101_upper))))
       = ascii_upper s \/
     py_str plain_repr (tag_name (tags (format_row geo (joined a101_upper))))
       = ascii_upper s) /\
    ((forall t, ascii_upper (ascii_upper t) = ascii_upper t) ->
     ascii_upper (py_str plain_repr
                    (tag_ref (tags (format_row geo (joined a101_upper)))))
       = ascii_upper s \/
     ascii_upper (py_str plain_repr
                    (tag_name (tags (format_row geo (joined a101_upper)))))
       = ascii_upper s).
Proof.
  split; [reflexivity|].
  apply (@room_match_is_exact ascii_upper plain_repr osm geo
           (VStr "Engineering Hall") (VStr "a101") VNone).
  reflexivity.
Defined.

(** Two rooms [A101] survive the join, on level 2 and then on level 1: the
    one on level 2 is returned, because it comes first. *)
Lemma first_match_wins_a101 :
  (building_query osm (VStr "Engineering Hall") = Return [engineering_hall] /\
   [engineering_hall] <> [] /\
   room_query osm (ascii_upper "a101")
     = Return [a101_elsewhere; a101_upper; a101_lower] /\
   [a101_elsewhere; a101_upper; a101_lower] <> [] /\
   rooms_in_building geo [engineering_hall] [a101_elsewhere; a101_upper; a101_lower]
     = ([] ++ joined a101_upper :: [joined a101_lower])%list /\
   is_exact_match plain_repr (ascii_upper "a101") (format_row geo (joined a101_upper))
     = true)
  /\
  (is_exact_match plain_repr (ascii_upper "a101") (format_row geo (joined a101_lower))
     = true /\
   tag_level (tags (format_row geo (joined a101_upper))) = VStr "2" /\
   tag_level (tags (format_row geo (joined a101_lower))) = VStr "1")
  /\
  find_room_on_campus "Engineering Hall" "a101"
    = Return (MatchResult (format_row geo (joined a101_upper))).
Proof.
  split; [repeat split; try reflexivity; discriminate|].
  split; [repeat split|].
  apply (@first_match_wins ascii_upper plain_repr osm geo
           (VStr "Engineering Hall") VNone "a101"
           [engineering_hall] [a101_elsewhere; a101_upper; a101_lower]
           [] (joined a101_upper) [joined a101_lower]);
    try reflexivity; try discriminate.
  constructor.
Defined.

(** The caller wrote [b7]; the message says [B7]. *)
Lemma failure_messages_upper_b7 :
  find_room_on_campus "Engineering Hall" "b7"
    = Return (ErrorResult "Room 'B7' not found in Engineering Hall")
  /\
  ("Room 'B7' not found in Engineering Hall"
     = "Building '" ++ "Engineering Hall" ++ "' not found" \/
   "Room 'B7' not found in Engineering Hall"
     = "Room '" ++ ascii_upper "b7" ++ "' not found in dataset" \/
   "Room 'B7' not found in Engineering Hall"
     = "Room '" ++ ascii_upper "b7" ++ "' not found in " ++ "Engineering Hall" \/
   "Room 'B7' not found in Engineering Hall"
     = "Exact match for '" ++ ascii_upper "b7" ++ "' not found").
Proof.
  split; [reflexivity|].
  apply (@failure_messages_upper ascii_upper plain_repr osm geo
           "Engineering Hall" "b7" VNone).
  reflexivity.
Defined.

Example building_message_verbatim :
  find_room_on_campus "engineering hall" "a101"
    = Return (ErrorResult "Building 'engineering hall' not found").
Proof. reflexivity. Qed.

(** [a101] and [A101] resolve to the same room. *)
Lemma find_room_case_insensitive_a101 :
  (forall s, ascii_upper (ascii_upper s) = ascii_upper s) /\
  find_room_on_campus "Engineering Hall" "a101"
    = find_room_on_campus "Engineering Hall" "A101".
Proof.
  split; [exact ascii_upper_idempotent|].
  exact (@find_room_case_insensitive ascii_upper plain_repr osm geo
           ascii_upper_idempotent (VStr "Engineering Hall") VNone "a101").
Defined.

(** The room [A101] on level 2 is a polygon: it is joined by its centroid. *)
Lemma centroid_lambda_cases_a101 :
  centroid_lambda geo (row_geometry a101_upper)
    = Point (centroid geo (row_geometry a101_upper))
  /\ centroid_lambda geo (row_geometry desk) = row_geometry desk.
Proof.
  destruct (centroid_lambda_cases geo (row_geometry a101_upper)) as (_ & Hpoly & _).
  destruct (centroid_lambda_cases geo (row_geometry desk)) as (_ & _ & Hother & _).
  split.
  - apply Hpoly. left. reflexivity.
  - apply Hother; discriminate.
Defined.

(** The corridor is an open way, a line: it is a candidate for [W1], and the
    geometry joined against the building is the line itself, which is not
    its centroid, whatever the geometry library computes.  The difference
    shows on the threshold: its centroid lies within the hall, the line does
    not, and the room is reported as not in the building. *)
Lemma corridor_is_not_joined_by_centroid :
  room_query osm (ascii_upper "w1") = Return [corridor]
  /\ row_geometry corridor = LineString [(1, 1); (3, 3)]%float
  /\ centroid_col (joined corridor) = LineString [(1, 1); (3, 3)]%float
  /\ centroid_col (joined corridor) <> Point (centroid geo (row_geometry corridor))
  /\ (forall G : Geo,
        centroid_lambda G (row_geometry corridor)
          <> Point (centroid G (row_geometry corridor)))
  /\ room_query osm (ascii_upper "w2") = Return [threshold]
  /\ within geo (Point (centroid geo (row_geometry threshold)))
       (building_geom geo [engineering_hall]) = true
  /\ within geo (centroid_col (joined threshold))
       (building_geom geo [engineering_hall]) = false
  /\ find_room_on_campus "Engineering Hall" "w2"
     = Return (ErrorResult "Room 'W2' not found in Engineering Hall").
Proof.
  repeat split; try discriminate.
Qed.




#[local] Abbreviation find_room_request body :=
  {| path := "/v1/find-room"; get_json := Return body |}.

#[local] Abbreviation campus_cache_key :=
  (make_request_body_cache_key plain_int plain_float quoted digest).

(** The same two members, written in either order, give one key. *)

Lemma cache_key_cases_campus :
  (same_modulo_key_order
     (VDict [("room", VStr "a101"); ("building", VStr "Engineering Hall")])
     (VDict [("building", VStr "Engineering Hall"); ("room", VStr "a101")])
   /\ distinct_keys
        (VDict [("room", VStr "a101"); ("building", VStr "Engineering Hall")]))
  /\ campus_cache_key
       (find_room_request
          (VDict [("room", VStr "a101"); ("building", VStr "Engineering Hall")]))
     = campus_cache_key
         (find_room_request
            (VDict [("building", VStr "Engineering Hall"); ("room", VStr "a101")]))
  /\ campus_cache_key
       (find_room_request
          (VDict [("room", VStr "a101"); ("building", VStr "Engineering Hall")]))
     = "/v1/find-room" ++ ":"
       ++ digest (dumps plain_int plain_float quoted
                    (VDict [("room", VStr "a101");
                            ("building", VStr "Engineering Hall")])).
Proof.
  assert (Hsame : same_modulo_key_order
     (VDict [("room", VStr "a101"); ("building", VStr "Engineering Hall")])
     (VDict [("building", VStr "Engineering Hall"); ("room", VStr "a101")])).
  { eapply same_dict; [apply perm_swap|].
    repeat constructor. }
  assert (Hkeys : distinct_keys
     (VDict [("room", VStr "a101"); ("building", VStr "Engineering Hall")])).
  { simpl. repeat split. repeat constructor; simpl; intuition discriminate. }
  destruct (cache_key_cases plain_int plain_float quoted digest
              (find_room_request
                 (VDict [("room", VStr "a101");
                         ("building", VStr "Engineering Hall")])))
    as (_ & _ & Htruthy & Horder).
  split; [split; assumption|]. split.
  - exact (Horder _ _ Hsame Hkeys).
  - apply Htruthy; reflexivity.
Defined.

(** An empty object is a body, and it parses; its key is the path alone, not
    the path with a digest, whatever the digest function. *)
Lemma empty_object_keyed_by_path :
  get_json (find_room_request (VDict [])) = Return (VDict [])
  /\ campus_cache_key (find_room_request (VDict [])) = "/v1/find-room"
  /\ campus_cache_key (find_room_request (VDict []))
       <> "/v1/find-room" ++ ":"
          ++ digest (dumps plain_int plain_float quoted (VDict []))
  /\ (forall md5 : string -> string,
        make_request_body_cache_key plain_int plain_float quoted md5
          (find_room_request (VDict []))
          <> "/v1/find-room" ++ ":"
             ++ md5 (dumps plain_int plain_float quoted (VDict []))).
Proof.
  repeat split; try discriminate.
Qed.

(** The number [5] as a body. *)
Lemma handle_find_room_number_five :
  5%Z <> 0%Z
  /\ handle_find_room ascii_upper plain_repr osm geo VNone
       {| path := "/v1/find-room"; get_json := Return (VInt 5) |}
     = {| body := VDict [("error",
                          VStr "Server error: argument of type 'int' is not iterable")];
          status := 500 |}.
Proof.
  split; [discriminate|].
  apply (@handle_find_room_number_body ascii_upper plain_repr osm geo VNone
           "/v1/find-room" 5%Z).
  discriminate.
Defined.

Example find_room_endpoint_statuses :
  status (handle_find_room ascii_upper plain_repr osm geo VNone
            (find_room_request (VDict [("building", VStr "Engineering Hall")])))
    = 400%Z
  /\ status (handle_find_room ascii_upper plain_repr osm geo VNone
               (find_room_request VNone)) = 400%Z
  /\ status (handle_find_room ascii_upper plain_repr osm geo VNone
               (find_room_request (VDict [("building", VStr "Engineering Hall");
                                          ("room", VStr "zz")]))) = 404%Z
  /\ status (handle_find_room ascii_upper plain_repr osm geo VNone
               (find_room_request (VDict [("building", VStr "Engineering Hall");
                                          ("room", VStr "a101")]))) = 200%Z
  /\ handle_find_room ascii_upper plain_repr osm geo VNone
       (find_room_request (VDict [("building", VStr "Engineering Hall");
                                  ("room", VInt 101)]))
     = {| body := VDict [("error",
                          VStr "Server error: 'int' object has no attribute 'upper'")];
          status := 500 |}
  /\ handle_find_room ascii_upper plain_repr osm_unreadable geo VNone
       (find_room_request (VDict [("building", VStr "Engineering Hall");
                                  ("room", VStr "a101")]))
     = {| body := VDict [("error", VStr "Server error: cannot read the extract")];
          status := 500 |}.
Proof. repeat split. Qed.

Example rooms_endpoint_unreadable :
  handle_rooms osm_unreadable = Raise "cannot read the extract".
Proof. reflexivity. Qed.

(* ------------------------------------------------------------------ *)
(** *** More examples *)


Example find_room_raises_on_campus :
  find_room ascii_upper plain_repr osm geo (VStr "Engineering Hall") (VInt 101) VNone
    = Raise "'int' object has no attribute 'upper'"
  /\ find_room ascii_upper plain_repr osm_unreadable geo
       (VStr "Engineering Hall") (VStr "a101") VNone
     = Raise "cannot read the extract"
  /\ find_room ascii_upper plain_repr osm geo (VStr "Nowhere") (VInt 101) VNone
     = Return (ErrorResult "Building 'Nowhere' not found").
Proof. repeat split. Qed.



(** The room returned for [a101] is the candidate [a101_upper]. *)
Lemma match_comes_from_candidate_a101 :
  (sjoin_within_inner geo /\
   find_room_on_campus "Engineering Hall" "a101"
     = Return (MatchResult (format_row geo (joined a101_upper))))
  /\
  exists (buildings rooms : GeoDataFrame) (s : string) (c : row),
    building_query osm (VStr "Engineering Hall") = Return buildings /\
    VStr "a101" = VStr s /\
    room_query osm (ascii_upper s) = Return rooms /\
    In c rooms /\
    within geo (centroid_lambda geo (row_geometry c)) (building_geom geo buildings)
      = true /\
    (py_str plain_repr (row_ref c) = ascii_upper s \/
     py_str plain_repr (row_name c) = ascii_upper s) /\
    osm_id (format_row geo (joined a101_upper)) = row_id c /\
    tags (format_row geo (joined a101_upper))
      = {| tag_name := row_name c; tag_ref := row_ref c;
           tag_level := row_level c |} /\
    latitude (format_row geo (joined a101_upper))
      = snd (centroid geo (row_geometry c)) /\
    longitude (format_row geo (joined a101_upper))
      = fst (centroid geo (row_geometry c)) /\
    (geom_type (row_geometry c) <> "Polygon" ->
     geom_type (row_geometry c) <> "MultiPolygon" ->
     nodes (format_row geo (joined a101_upper)) = []).
Proof.
  split; [split; [exact campus_join_law | reflexivity]|].
  apply (@match_comes_from_candidate ascii_upper plain_repr osm geo
           (VStr "Engineering Hall") (VStr "a101") VNone).
  - exact campus_join_law.
  - reflexivity.
Defined.

(** [B7] has a candidate, but not within the hall: nothing is found there. *)
Lemma find_room_finds_iff_b7 :
  (sjoin_within_inner geo /\
   building_query osm (VStr "Engineering Hall") = Return [engineering_hall] /\
   [engineering_hall] <> [] /\
   room_query osm (ascii_upper "b7") = Return [b7_elsewhere])
  /\
  ((exists m, find_room_on_campus "Engineering Hall" "b7" = Return (MatchResult m))
   <->
   exists c, In c [b7_elsewhere] /\
     within geo (centroid_lambda geo (row_geometry c))
       (building_geom geo [engineering_hall]) = true /\
     (py_str plain_repr (row_ref c) = ascii_upper "b7" \/
      py_str plain_repr (row_name c) = ascii_upper "b7")).
Proof.
  split; [split; [exact campus_join_law | repeat split; discriminate]|].
  apply (@find_room_finds_iff ascii_upper plain_repr osm geo
           (VStr "Engineering Hall") VNone "b7" [engineering_hall] [b7_elsewhere]).
  - exact campus_join_law.
  - reflexivity.
  - discriminate.
  - reflexivity.
Defined.

(** The tag [A101] of the room returned is its own upper case. *)
Lemma match_tag_is_upper_case_a101 :
  ((forall t, ascii_upper (ascii_upper t) = ascii_upper t) /\
   find_room_on_campus "Engineering Hall" "a101"
     = Return (MatchResult (format_row geo (joined a101_upper))))
  /\
  (ascii_upper (py_str plain_repr (tag_ref (tags (format_row geo (joined a101_upper)))))
     = py_str plain_repr (tag_ref (tags (format_row geo (joined a101_upper)))) \/
   ascii_upper (py_str plain_repr (tag_name (tags (format_row geo (joined a101_upper)))))
     = py_str plain_repr (tag_name (tags (format_row geo (joined a101_upper))))).
Proof.
  split; [split; [exact ascii_upper_idempotent | reflexivity]|].
  apply (@match_tag_is_upper_case ascii_upper plain_repr osm geo
           (VStr "Engineering Hall") (VStr "a101") VNone).
  - exact ascii_upper_idempotent.
  - reflexivity.
Defined.


(** A body that cannot be parsed and an empty object: one key, two answers. *)
Lemma cache_key_conflates_statuses_campus :
  truthy (VDict []) = false
  /\ campus_cache_key {| path := "/v1/find-room"; get_json := Raise "400 Bad Request" |}
     = campus_cache_key (find_room_request (VDict []))
  /\ status (handle_find_room ascii_upper plain_repr osm geo VNone
               {| path := "/v1/find-room"; get_json := Raise "400 Bad Request" |})
     = 500%Z
  /\ status (handle_find_room ascii_upper plain_repr osm geo VNone
               (find_room_request (VDict []))) = 400%Z.
Proof.
  split; [reflexivity|].
  apply (@cache_key_conflates_statuses ascii_upper plain_repr plain_int plain_float
           quoted digest osm geo VNone "/v1/find-room" "400 Bad Request" (VDict [])).
  reflexivity.
Defined.

Example dumps_sorts_keys :
  dumps plain_int plain_float quoted
    (VDict [("room", VStr "a101"); ("building", VList [VNone; VBool true])])
  = "{" ++ quote ++ "building" ++ quote ++ ": [null, true], "
        ++ quote ++ "room" ++ quote ++ ": " ++ quote ++ "a101" ++ quote ++ "}".
Proof. reflexivity. Qed.
